(** * Session store and notification handler of majlis-e-amali-rooznamcha

    A shallow embedding of [src/hooks/useAuth.tsx] (the [useAuth] hook: the
    auth-change subscription callback, [fetchProfile], [signIn], [signUp],
    [signOut]) and of the unread counter of
    [src/components/NotificationHandler.tsx].

    The hook is asynchronous JavaScript.  Its functions are embedded as
    finite trees of effects ([async]): a call into the Supabase client is a
    node that suspends the function until the request settles, a React state
    setter, a [setTimeout] and a console call are nodes that continue at
    once.  Two interpreters give the trees their meaning: [run_async] runs
    one function to completion against an arbitrary backend, and [step] is
    the browser's event loop, where requests settle later and in any
    order.  [mounted] is the hook in its initial state, with nothing in
    flight; [mounting] is the hook once its effect has started
    [initializeAuth], which then waits for the session.

    The [UserManagement] component, whose source follows the hook in the
    same file, is embedded as a state machine over its React state: each
    handler maps the state of the current render to the next state and to
    the calls it makes on its props. *)

From Stdlib Require Import String List Bool Arith Lia Permutation.
Import ListNotations.
Local Open Scope string_scope.
Local Open Scope list_scope.

(** ** Data *)

(** A value thrown by JavaScript code; the hook never inspects it. *)
Definition exn := string.

(** [User] and [Session] of the Supabase client, reduced to the fields the
    hook reads.  [email] is optional in [User]; a [Session] always carries
    its [user]. *)
Record User := mkUser {
  user_id : string;
  user_email : option string
}.

Record Session := mkSession {
  session_user : User;
  access_token : string
}.

(** [Database.public.Tables.profiles.Row].  A JSON field can be [null] at
    run time whatever the generated type says; [fetchProfile] guards
    [secret_number] against that, so this field is optional here. *)
Record ProfileRow := mkRow {
  row_id : string;
  row_name : string;
  row_email : string;
  row_role : string;
  row_secret_number : option string;
  row_is_active : bool;
  row_created_at : string;
  row_updated_at : string
}.

(** [interface Profile].  The type ['admin' | 'member'] of [role] exists
    only at compile time: [as] is erased, so at run time the field holds
    whatever string the row held. *)
Record Profile := mkProfile {
  id : string;
  name : string;
  email : string;
  role : string;
  secret_number : string;
  is_active : bool;
  created_at : string;
  updated_at : string
}.

Record AuthError := mkAuthError { auth_message : string }.
Record PostgrestError := mkPgError { pg_message : string }.

(** ** Requests to the backend client *)

Inductive request : Type :=
| GetSession
| SignOut
| SignInWithPassword (email password : string)
| SignUp (email password name emailRedirectTo : string)
| SelectProfiles (userId : string).

(** What the promise of each request resolves to. *)
Record AuthReply := mkAuthReply { auth_error : option AuthError }.
Record SessionReply := mkSessionReply {
  reply_session : option Session;
  session_error : option AuthError
}.
Record QueryReply := mkQueryReply {
  data : option (list ProfileRow);
  query_error : option PostgrestError
}.

Definition reply (rq : request) : Type :=
  match rq with
  | GetSession => SessionReply
  | SelectProfiles _ => QueryReply
  | SignOut | SignInWithPassword _ _ | SignUp _ _ _ _ => AuthReply
  end.

(** A promise settles: it resolves to a value or rejects with a thrown
    value. *)
Inductive outcome (A : Type) : Type :=
| Resolved (a : A)
| Rejected (e : exn).
Arguments Resolved {A} a.
Arguments Rejected {A} e.

(** ** Effects of the hook *)

(** The four [useState] setters. *)
Inductive setter : Type :=
| SetUser (u : option User)
| SetSession (s : option Session)
| SetProfile (p : option Profile)
| SetLoading (b : bool).

(** The closures handed to [setTimeout]: the hook has one,
    [() => fetchProfile(session.user.id, session.user.email)]. *)
Inductive task : Type :=
| FetchProfileTask (userId : string) (userEmail : option string).

Inductive log_level := LevelLog | LevelError.

Inductive log_arg : Type :=
| ArgString (s : string)
| ArgUndefined
| ArgBool (b : bool)
| ArgObject.

Record log_entry := mkLog {
  level : log_level;
  label : string;
  args : list log_arg
}.

(** An asynchronous function body returning [A]. *)
Inductive async (A : Type) : Type :=
| Return (a : A)
| Throw (e : exn)
| Await (rq : request) (k : outcome (reply rq) -> async A)
| Set_ (u : setter) (k : async A)
| SetTimeout (t : task) (k : async A)
| Console (l : log_entry) (k : async A).
Arguments Return {A} a.
Arguments Throw {A} e.
Arguments Await {A} rq k.
Arguments Set_ {A} u k.
Arguments SetTimeout {A} t k.
Arguments Console {A} l k.

Fixpoint bind {A B : Type} (p : async A) (f : A -> async B) : async B :=
  match p with
  | Return a => f a
  | Throw e => Throw e
  | Await rq k => Await rq (fun o => bind (k o) f)
  | Set_ u k => Set_ u (bind k f)
  | SetTimeout t k => SetTimeout t (bind k f)
  | Console l k => Console l (bind k f)
  end.

(** [try { p } catch (e) { h e }] *)
Fixpoint try_catch {A : Type} (p : async A) (h : exn -> async A) : async A :=
  match p with
  | Return a => Return a
  | Throw e => h e
  | Await rq k => Await rq (fun o => try_catch (k o) h)
  | Set_ u k => Set_ u (try_catch k h)
  | SetTimeout t k => SetTimeout t (try_catch k h)
  | Console l k => Console l (try_catch k h)
  end.

(** [try { p } finally { f }]: [f] runs however [p] completes, and [p]'s
    completion stands unless [f] throws. *)
Fixpoint try_finally {A : Type} (p : async A) (f : async unit) : async A :=
  match p with
  | Return a => bind f (fun _ => Return a)
  | Throw e => bind f (fun _ => Throw e)
  | Await rq k => Await rq (fun o => try_finally (k o) f)
  | Set_ u k => Set_ u (try_finally k f)
  | SetTimeout t k => SetTimeout t (try_finally k f)
  | Console l k => Console l (try_finally k f)
  end.

(** [await request]: a rejected promise is thrown at the [await]. *)
Definition await (rq : request) : async (reply rq) :=
  Await rq (fun o =>
    match o with
    | Resolved r => Return r
    | Rejected e => Throw e
    end).

Definition set (u : setter) : async unit := Set_ u (Return tt).
Definition setTimeout (t : task) : async unit := SetTimeout t (Return tt).
Definition console_log (lbl : string) (a : list log_arg) : async unit :=
  Console (mkLog LevelLog lbl a) (Return tt).
Definition console_error (lbl : string) (a : list log_arg) : async unit :=
  Console (mkLog LevelError lbl a) (Return tt).

Declare Scope async_scope.
Delimit Scope async_scope with async.
Notation "x <- p ;; q" := (bind p (fun x => q))
  (at level 61, p at next level, right associativity) : async_scope.
Notation "p ;; q" := (bind p (fun _ => q))
  (at level 61, right associativity) : async_scope.
Notation "'try' p 'catch' h" := (try_catch p h)
  (at level 62, p at level 61, h at level 61) : async_scope.
Local Open Scope async_scope.

(** JavaScript's [a || b] on a possibly-null string: [a] when it is truthy
    (present and not empty), [b] otherwise. *)
Definition truthy (v : option string) : bool :=
  match v with
  | Some s => negb (String.eqb s "")
  | None => false
  end.

Definition or_else (v : option string) (d : string) : string :=
  match v with
  | Some s => if truthy v then s else d
  | None => d
  end.

Definition arg_of (v : option string) : log_arg :=
  match v with
  | Some s => ArgString s
  | None => ArgUndefined
  end.

Definition present {A : Type} (v : option A) : bool :=
  match v with
  | Some _ => true
  | None => false
  end.

(** ** The hook: [src/hooks/useAuth.tsx] *)

Module useAuth.

(** The React state of the hook. *)
Record store := mkStore {
  user : option User;
  session : option Session;
  profile : option Profile;
  loading : bool
}.

(** [useState(null)] three times and [useState(true)]. *)
Definition initial : store :=
  {| user := None; session := None; profile := None; loading := true |}.

Definition apply_setter (u : setter) (s : store) : store :=
  match u with
  | SetUser v =>
      {| user := v; session := session s; profile := profile s; loading := loading s |}
  | SetSession v =>
      {| user := user s; session := v; profile := profile s; loading := loading s |}
  | SetProfile v =>
      {| user := user s; session := session s; profile := v; loading := loading s |}
  | SetLoading v =>
      {| user := user s; session := session s; profile := profile s; loading := v |}
  end.

(** The object literal passed to [setProfile]. *)
Definition profile_of_row (profileData : ProfileRow) : Profile :=
  {| id := row_id profileData;
     name := row_name profileData;
     email := row_email profileData;
     role := row_role profileData;
     secret_number := or_else (row_secret_number profileData) "";
     is_active := row_is_active profileData;
     created_at := row_created_at profileData;
     updated_at := row_updated_at profileData |}.

Definition fetchProfile (userId : string) (userEmail : option string) : async unit :=
  console_log "Fetching profile for user:" [ArgString userId; arg_of userEmail] ;;
  try_finally
    (try
       (r <- await (SelectProfiles userId) ;;
        console_log "Profile fetch result:" [ArgObject] ;;
        match query_error r with
        | Some _ =>
            console_error "Error fetching profile:" [ArgObject] ;;
            set (SetProfile None)
        | None =>
            match data r with
            | Some (profileData :: _) =>
                console_log "Profile found, setting profile data" [] ;;
                set (SetProfile (Some (profile_of_row profileData)))
            | Some [] | None =>
                console_log "No profile data found" [] ;;
                set (SetProfile None)
            end
        end)
     catch (fun _ =>
       console_error "Error in fetchProfile:" [ArgObject] ;;
       set (SetProfile None)))
    (console_log "Setting loading to false" [] ;;
     set (SetLoading false)).

(** The callback given to [supabase.auth.onAuthStateChange]. *)
Definition onAuthStateChange (event : string) (session : option Session) : async unit :=
  console_log "Auth state change:" [ArgString event; ArgBool (present session)] ;;
  set (SetSession session) ;;
  set (SetUser (option_map session_user session)) ;;
  match session with
  | Some s =>
      setTimeout (FetchProfileTask (user_id (session_user s))
                                   (user_email (session_user s)))
  | None =>
      set (SetProfile None) ;;
      set (SetLoading false)
  end.

(** What [signIn], [signUp] and [signOut] return: [{ error }].  In
    [signIn]'s [catch] the field holds the caught value instead of an
    [AuthError]. *)
Inductive error_value : Type :=
| OfClient (e : AuthError)
| Caught (e : exn).

Record result := mkResult { error : option error_value }.

Definition signIn (email password : string) : async result :=
  try
    (_ <- await SignOut ;;
     r <- await (SignInWithPassword email password) ;;
     Return {| error := option_map OfClient (auth_error r) |})
  catch (fun e =>
    console_error "Sign in error:" [ArgObject] ;;
    Return {| error := Some (Caught e) |}).

(** [origin] is [window.location.origin]. *)
Definition signUp (origin : string) (email password name : string) : async result :=
  r <- await (SignUp email password name (origin ++ "/")) ;;
  Return {| error := option_map OfClient (auth_error r) |}.

Definition signOut : async result :=
  r <- await SignOut ;;
  Return {| error := option_map OfClient (auth_error r) |}.

(** [initializeAuth], started once by the hook's effect. *)
Definition initializeAuth : async unit :=
  try
    (r <- await GetSession ;;
     match session_error r with
     | Some _ =>
         console_log "Session error, clearing auth state:" [ArgObject] ;;
         _ <- await SignOut ;;
         set (SetSession None) ;;
         set (SetUser None) ;;
         set (SetProfile None) ;;
         set (SetLoading false)
     | None =>
         set (SetSession (reply_session r)) ;;
         set (SetUser (option_map session_user (reply_session r))) ;;
         match reply_session r with
         | Some s =>
             setTimeout (FetchProfileTask (user_id (session_user s))
                                          (user_email (session_user s)))
         | None =>
             set (SetLoading false)
         end
     end)
  catch (fun _ =>
    console_error "Auth initialization error:" [ArgObject] ;;
    _ <- await SignOut ;;
    set (SetSession None) ;;
    set (SetUser None) ;;
    set (SetProfile None) ;;
    set (SetLoading false)).

(** The body of a timer task. *)
Definition task_body (t : task) : async unit :=
  match t with
  | FetchProfileTask userId userEmail => fetchProfile userId userEmail
  end.

(** *** Running one function to completion

    The backend is arbitrary: what a request settles to may depend on the
    request and on every request sent before it, and a request may
    reject. *)

Inductive effect : Type :=
| Requested (rq : request)
| DidSet (u : setter)
| Scheduled (t : task)
| Logged (l : log_entry).

Definition backend : Type :=
  list request -> forall rq : request, outcome (reply rq).

(** The promise the function returns settles to [Resolved a] when the body
    returns [a] and to [Rejected e] when [e] escapes it; the list is what
    the body did, in order. *)
Fixpoint run_async {A : Type} (b : backend) (sent : list request) (p : async A)
  : outcome A * list effect :=
  match p with
  | Return a => (Resolved a, [])
  | Throw e => (Rejected e, [])
  | Await rq k =>
      let (r, tr) := run_async b (sent ++ [rq]) (k (b sent rq)) in
      (r, Requested rq :: tr)
  | Set_ u k =>
      let (r, tr) := run_async b sent k in (r, DidSet u :: tr)
  | SetTimeout t k =>
      let (r, tr) := run_async b sent k in (r, Scheduled t :: tr)
  | Console l k =>
      let (r, tr) := run_async b sent k in (r, Logged l :: tr)
  end.

Fixpoint requests (tr : list effect) : list request :=
  match tr with
  | [] => []
  | Requested rq :: tr' => rq :: requests tr'
  | _ :: tr' => requests tr'
  end.

Fixpoint setters (tr : list effect) : list setter :=
  match tr with
  | [] => []
  | DidSet u :: tr' => u :: setters tr'
  | _ :: tr' => setters tr'
  end.

Definition sets_loading (u : setter) : bool :=
  match u with
  | SetLoading _ => true
  | _ => false
  end.

(** A body that reaches no [await] on any path taken without one. *)
Fixpoint await_free {A : Type} (p : async A) : bool :=
  match p with
  | Return _ | Throw _ => true
  | Await _ _ => false
  | Set_ _ k | SetTimeout _ k | Console _ k => await_free k
  end.

(** *** The event loop

    [store] is the React state, [timers] the queue of [setTimeout(_, 0)]
    tasks, [inflight] the bodies suspended at an [await] with the request
    each waits for, [history] everything done so far and [unhandled] the
    values thrown out of a task. *)

Inductive suspended : Type :=
| Suspended (rq : request) (k : outcome (reply rq) -> async unit).

Record world := mkWorld {
  state : store;
  timers : list task;
  inflight : list suspended;
  history : list effect;
  unhandled : list exn
}.

Definition mounted : world :=
  {| state := initial; timers := []; inflight := []; history := []; unhandled := [] |}.

(** Runs a body until it returns, throws or suspends at an [await]. *)
Fixpoint run_sync (p : async unit) (w : world) : world :=
  match p with
  | Return _ => w
  | Throw e =>
      {| state := state w; timers := timers w; inflight := inflight w;
         history := history w; unhandled := unhandled w ++ [e] |}
  | Await rq k =>
      {| state := state w; timers := timers w;
         inflight := inflight w ++ [Suspended rq k];
         history := history w ++ [Requested rq]; unhandled := unhandled w |}
  | Set_ u k =>
      run_sync k
        {| state := apply_setter u (state w); timers := timers w;
           inflight := inflight w; history := history w ++ [DidSet u];
           unhandled := unhandled w |}
  | SetTimeout t k =>
      run_sync k
        {| state := state w; timers := timers w ++ [t];
           inflight := inflight w; history := history w ++ [Scheduled t];
           unhandled := unhandled w |}
  | Console l k =>
      run_sync k
        {| state := state w; timers := timers w; inflight := inflight w;
           history := history w ++ [Logged l]; unhandled := unhandled w |}
  end.

(** What arrives from the network for a request in flight. *)
Inductive payload : Type :=
| AuthPayload (r : AuthReply)
| SessionPayload (r : SessionReply)
| QueryPayload (r : QueryReply).

Inductive settlement : Type :=
| Fulfil (v : payload)
| Fail (e : exn).

(** A settlement read at the type of the request it answers; [None] when
    the payload is of another request's kind, which the client never
    delivers. *)
Definition typed (rq : request) (s : settlement) : option (outcome (reply rq)) :=
  match s with
  | Fail e => Some (Rejected e)
  | Fulfil v =>
      match rq return option (outcome (reply rq)) with
      | GetSession =>
          match v with SessionPayload r => Some (Resolved r) | _ => None end
      | SelectProfiles _ =>
          match v with QueryPayload r => Some (Resolved r) | _ => None end
      | SignOut =>
          match v with AuthPayload r => Some (Resolved r) | _ => None end
      | SignInWithPassword _ _ =>
          match v with AuthPayload r => Some (Resolved r) | _ => None end
      | SignUp _ _ _ _ =>
          match v with AuthPayload r => Some (Resolved r) | _ => None end
      end
  end.

Definition resume (s : suspended) (x : settlement) : option (async unit) :=
  match s with
  | Suspended rq k => option_map k (typed rq x)
  end.

Fixpoint remove_nth {A : Type} (i : nat) (l : list A) : list A :=
  match l, i with
  | [], _ => []
  | _ :: l', O => l'
  | a :: l', S i' => a :: remove_nth i' l'
  end.

Inductive event : Type :=
| AuthStateChange (ev : string) (s : option Session)
| TimerFires
| Settles (i : nat) (x : settlement).

(** One turn of the event loop: the client delivers an auth event to the
    subscription callback, the oldest timer task runs, or the [i]-th
    request in flight settles and the body waiting for it goes on. *)
Definition step (w : world) (e : event) : world :=
  match e with
  | AuthStateChange ev s => run_sync (onAuthStateChange ev s) w
  | TimerFires =>
      match timers w with
      | [] => w
      | t :: ts =>
          run_sync (task_body t)
            {| state := state w; timers := ts; inflight := inflight w;
               history := history w; unhandled := unhandled w |}
      end
  | Settles i x =>
      match nth_error (inflight w) i with
      | None => w
      | Some s =>
          match resume s x with
          | None => w
          | Some p =>
              run_sync p
                {| state := state w; timers := timers w;
                   inflight := remove_nth i (inflight w);
                   history := history w; unhandled := unhandled w |}
          end
      end
  end.

Definition run (w : world) (evs : list event) : world :=
  fold_left step evs w.

(** The hook after its effect has run: [initializeAuth] has been called
    and waits for [getSession]; the subscription is in place. *)
Definition mounting : world :=
  run_sync initializeAuth mounted.

(** The world [w] with its timer queue replaced. *)
Definition with_timers (w : world) (ts : list task) : world :=
  {| state := state w; timers := ts; inflight := inflight w;
     history := history w; unhandled := unhandled w |}.

(** The request a timer task sends when it runs. *)
Definition task_request (t : task) : request :=
  match t with
  | FetchProfileTask userId _ => SelectProfiles userId
  end.

(** *** Vocabulary of the properties *)

(** Where a body first suspends, if it does. *)
Fixpoint first_suspension (p : async unit) : option suspended :=
  match p with
  | Return _ | Throw _ => None
  | Await rq k => Some (Suspended rq k)
  | Set_ _ k | SetTimeout _ k | Console _ k => first_suspension k
  end.

(** A suspended body that is a [fetchProfile] waiting for its query. *)
Definition fetching (s : suspended) : Prop :=
  exists userId userEmail,
    first_suspension (fetchProfile userId userEmail) = Some s.

(** The settlement of a profile query. *)
Definition query_settles (o : outcome QueryReply) : settlement :=
  match o with
  | Resolved r => Fulfil (QueryPayload r)
  | Rejected e => Fail e
  end.

(** The rows a settlement delivers: those of a query reply that carries no
    error. *)
Definition rows_of (x : settlement) : list ProfileRow :=
  match x with
  | Fulfil (QueryPayload r) =>
      match query_error r, data r with
      | None, Some rows => rows
      | _, _ => []
      end
  | _ => []
  end.

(** Profile is absent whenever Identity is absent. *)
Definition profile_needs_identity (s : store) : bool :=
  present (user s) || negb (present (profile s)).

(** A settlement that cannot part Profile from Identity in the store [s]:
    it delivers no profile row while Identity is absent, and it is not a
    session reply with neither session nor error while Profile is
    present. *)
Definition settle_safe (s : store) (x : settlement) : bool :=
  (present (user s) || match rows_of x with [] => true | _ :: _ => false end)
  &&
  match x with
  | Fulfil (SessionPayload r) =>
      match session_error r, reply_session r with
      | None, None => negb (present (profile s))
      | _, _ => true
      end
  | _ => true
  end.

Definition settles_safely (w : world) (e : event) : bool :=
  match e with
  | Settles _ x => settle_safe (state w) x
  | _ => true
  end.

Fixpoint all_settle_safely (w : world) (evs : list event) : bool :=
  match evs with
  | [] => true
  | e :: rest => settles_safely w e && all_settle_safely (step w e) rest
  end.

(** A body that, run from the store [s], leaves Profile with Identity
    where it returns, throws or suspends, and goes on doing so after each
    safe settlement of a request it waits for. *)
Fixpoint ends_well (p : async unit) (s : store) : Prop :=
  match p with
  | Return _ | Throw _ => profile_needs_identity s = true
  | Await rq k =>
      profile_needs_identity s = true /\
      forall x o s',
        typed rq x = Some o ->
        profile_needs_identity s' = true ->
        settle_safe s' x = true ->
        ends_well (k o) s'
  | Set_ u k => ends_well k (apply_setter u s)
  | SetTimeout _ k | Console _ k => ends_well k s
  end.

Definition waits_well (sp : suspended) : Prop :=
  match sp with
  | Suspended rq k =>
      forall x o s',
        typed rq x = Some o ->
        profile_needs_identity s' = true ->
        settle_safe s' x = true ->
        ends_well (k o) s'
  end.

(** Profile is with Identity now, and every body in flight will keep it
    so. *)
Definition keeps_identity (w : world) : Prop :=
  profile_needs_identity (state w) = true /\
  Forall waits_well (inflight w).

(** The reply of [getSession] that carries the session [so] and no
    error. *)
Definition session_settles (so : option Session) : settlement :=
  Fulfil (SessionPayload {| reply_session := so; session_error := None |}).

(** The tasks a trace has handed to [setTimeout]. *)
Fixpoint scheduled (tr : list effect) : list task :=
  match tr with
  | [] => []
  | Scheduled t :: tr' => t :: scheduled tr'
  | _ :: tr' => scheduled tr'
  end.

(** The four setter calls with which [initializeAuth] clears the store. *)
Definition clears : list setter :=
  [SetSession None; SetUser None; SetProfile None; SetLoading false].

(** [setLoading(true)]. *)
Definition turns_loading_on (u : setter) : bool :=
  match u with
  | SetLoading true => true
  | _ => false
  end.

(** A body that, however its requests settle, calls no setter that [bad]
    marks. *)
Fixpoint never_sets {A : Type} (bad : setter -> bool) (p : async A) : Prop :=
  match p with
  | Return _ | Throw _ => True
  | Await _ k => forall o, never_sets bad (k o)
  | Set_ u k => bad u = false /\ never_sets bad k
  | SetTimeout _ k | Console _ k => never_sets bad k
  end.

(** No body in flight will call a setter that [bad] marks. *)
Definition inflight_never_sets (bad : setter -> bool) (w : world) : Prop :=
  Forall (fun s => match s with
                   | Suspended rq k => forall o, never_sets bad (k o)
                   end)
         (inflight w).

Definition is_profile_query (rq : request) : bool :=
  match rq with
  | SelectProfiles _ => true
  | _ => false
  end.

Definition is_session_request (rq : request) : bool :=
  match rq with
  | GetSession => true
  | _ => false
  end.

(** The profile queries sent so far, followed by those of the timer tasks
    still queued. *)
Definition profile_queries (w : world) : list request :=
  filter is_profile_query (requests (history w)) ++
  map task_request (timers w).

(** The profile query an event calls for in the world [w]: one for an auth
    event that carries a session, and one for the reply to a waiting
    [getSession] that carries a session and no error; each for the
    session's user. *)
Definition query_cause (w : world) (e : event) : list request :=
  match e with
  | AuthStateChange _ (Some s) => [SelectProfiles (user_id (session_user s))]
  | Settles i (Fulfil (SessionPayload r)) =>
      match nth_error (inflight w) i, session_error r, reply_session r with
      | Some (Suspended GetSession _), None, Some s =>
          [SelectProfiles (user_id (session_user s))]
      | _, _, _ => []
      end
  | _ => []
  end.

Fixpoint queries_due (w : world) (evs : list event) : list request :=
  match evs with
  | [] => []
  | e :: rest => query_cause w e ++ queries_due (step w e) rest
  end.

(** The tasks a body queues before it returns, throws or suspends. *)
Fixpoint sync_tasks (p : async unit) : list task :=
  match p with
  | Return _ | Throw _ | Await _ _ => []
  | SetTimeout t k => t :: sync_tasks k
  | Set_ _ k | Console _ k => sync_tasks k
  end.

(** A body that queues no task and requests nothing but sign-outs. *)
Fixpoint calm (p : async unit) : Prop :=
  match p with
  | Return _ | Throw _ => True
  | Await rq k => rq = SignOut /\ forall o, calm (k o)
  | Set_ _ k | Console _ k => calm k
  | SetTimeout _ _ => False
  end.

Definition is_auth_event (e : event) : bool :=
  match e with
  | AuthStateChange _ _ => true
  | _ => false
  end.

(** A suspended body that is [initializeAuth] waiting for the session. *)
Definition initializing (s : suspended) : Prop :=
  first_suspension initializeAuth = Some s.

(** A body in flight that is [initializeAuth] waiting for the session, or
    waits for something else and is calm from there on. *)
Definition calm_wait (s : suspended) : Prop :=
  initializing s \/
  match s with
  | Suspended rq k => is_session_request rq = false /\ forall o, calm (k o)
  end.

(** *** Sample data *)

Module Sample.

Definition alice : User :=
  {| user_id := "u1"; user_email := Some "a@example.com" |}.

Definition alice_session : Session :=
  {| session_user := alice; access_token := "token-1" |}.

Definition alice_row : ProfileRow :=
  {| row_id := "u1"; row_name := "Alice"; row_email := "a@example.com";
     row_role := "admin"; row_secret_number := Some "";
     row_is_active := true;
     row_created_at := "2024-01-01"; row_updated_at := "2024-01-02" |}.

Definition other_row : ProfileRow :=
  {| row_id := "u2"; row_name := "Bilal"; row_email := "b@example.com";
     row_role := "owner"; row_secret_number := None;
     row_is_active := true;
     row_created_at := "2024-02-01"; row_updated_at := "2024-02-02" |}.

Definition one_row : settlement :=
  Fulfil (QueryPayload {| data := Some [alice_row]; query_error := None |}).

Definition two_rows : settlement :=
  Fulfil (QueryPayload {| data := Some [alice_row; other_row]; query_error := None |}).

Definition no_rows : settlement :=
  Fulfil (QueryPayload {| data := Some []; query_error := None |}).

(** Alice signs in, her profile is fetched and arrives. *)
Definition signed_in : list event :=
  [AuthStateChange "SIGNED_IN" (Some alice_session); TimerFires; Settles 0 one_row].

(** Alice signs in and out again while her profile query is in flight; the
    reply arrives afterwards. *)
Definition late_reply : list event :=
  [AuthStateChange "SIGNED_IN" (Some alice_session); TimerFires;
   AuthStateChange "SIGNED_OUT" None; Settles 0 one_row].

(** A backend whose every request rejects. *)
Definition offline : backend :=
  fun _ _ => Rejected "Failed to fetch".

(** A backend whose every request resolves without error and without
    data. *)
Definition quiet : backend :=
  fun _ rq =>
    match rq return outcome (reply rq) with
    | GetSession => Resolved {| reply_session := None; session_error := None |}
    | SelectProfiles _ => Resolved {| data := Some []; query_error := None |}
    | SignOut => Resolved {| auth_error := None |}
    | SignInWithPassword _ _ => Resolved {| auth_error := None |}
    | SignUp _ _ _ _ => Resolved {| auth_error := None |}
    end.

End Sample.

End useAuth.

(** ** [src/components/NotificationHandler.tsx] *)

Module NotificationHandler.

(** Modelled from the spec: the [Notification] type, declared in
    [NotificationPanel.tsx], which is not among the sources.  An entry has
    a read flag; the handler reads nothing else of it but the id handed to
    [handleMarkAsRead]. *)
Record Notification := mkNotification {
  notification_id : string;
  read : bool
}.

(** [notifications.filter(n => !n.read).length] *)
Definition unreadNotifications (notifications : list Notification) : nat :=
  length (filter (fun n => negb (read n)) notifications).

(** The count as the specification words it: the number of entries whose
    read flag is false. *)
Fixpoint spec_unread_count (notifications : list Notification) : nat :=
  match notifications with
  | [] => 0
  | n :: rest =>
      match read n with
      | false => S (spec_unread_count rest)
      | true => spec_unread_count rest
      end
  end.

End NotificationHandler.

(** ** The [UserManagement] component *)

Module UserManagement.

Inductive Role := admin | member.

(** [interface User] of the component. *)
Record User := mkUser {
  id : string;
  name : string;
  email : string;
  role : Role;
  password : string;
  secretNumber : string;
  createdAt : string;
  isActive : bool
}.

(** The object held in [formData]: a [User] without [id] and
    [createdAt]. *)
Record FormData := mkForm {
  form_name : string;
  form_email : string;
  form_role : Role;
  form_password : string;
  form_secretNumber : string;
  form_isActive : bool
}.

Inductive Mode := create | edit.

(** The four [useState] cells of the component. *)
Record ui := mkUi {
  isModalOpen : bool;
  currentUser : option User;
  modalMode : Mode;
  formData : FormData
}.

Definition initial : ui :=
  {| isModalOpen := false;
     currentUser := None;
     modalMode := create;
     formData := {| form_name := ""; form_email := ""; form_role := member;
                    form_password := ""; form_secretNumber := "";
                    form_isActive := true |} |}.

(** What a handler does outside the component's own state: the props it
    calls, the clipboard, the toast, [e.preventDefault()]. *)
Inductive call : Type :=
| onAddUser (user : FormData)
| onEditUser (user : User)
| onDeleteUser (userId : string)
| onToggleUserStatus (userId : string)
| clipboard_writeText (text : string)
| toast
| preventDefault.

Definition setIsModalOpen (v : bool) (st : ui) : ui :=
  {| isModalOpen := v; currentUser := currentUser st;
     modalMode := modalMode st; formData := formData st |}.

Definition setCurrentUser (v : option User) (st : ui) : ui :=
  {| isModalOpen := isModalOpen st; currentUser := v;
     modalMode := modalMode st; formData := formData st |}.

Definition setModalMode (v : Mode) (st : ui) : ui :=
  {| isModalOpen := isModalOpen st; currentUser := currentUser st;
     modalMode := v; formData := formData st |}.

Definition setFormData (v : FormData) (st : ui) : ui :=
  {| isModalOpen := isModalOpen st; currentUser := currentUser st;
     modalMode := modalMode st; formData := v |}.

(** [{ ...currentUser, ...formData }]: the form's fields override the
    user's, and [id] and [createdAt], which the form lacks, stay. *)
Definition spread (currentUser : User) (formData : FormData) : User :=
  {| id := id currentUser;
     name := form_name formData;
     email := form_email formData;
     role := form_role formData;
     password := form_password formData;
     secretNumber := form_secretNumber formData;
     createdAt := createdAt currentUser;
     isActive := form_isActive formData |}.

(** [drawn] stands for
    [Math.floor(100000 + Math.random() * 900000).toString()], the string
    of the number drawn; no handler looks into it. *)
Definition generateSecretNumber (drawn : string) (st : ui) : ui * list call :=
  let f := formData st in
  (setFormData {| form_name := form_name f; form_email := form_email f;
                  form_role := form_role f; form_password := form_password f;
                  form_secretNumber := drawn;
                  form_isActive := form_isActive f |} st,
   []).

Definition copySecretNumber (secretNumber : string) (st : ui) : ui * list call :=
  (st, [clipboard_writeText secretNumber; toast]).

Definition handleAddUser (drawn : string) (st : ui) : ui * list call :=
  (setIsModalOpen true
     (setFormData {| form_name := ""; form_email := ""; form_role := member;
                     form_password := ""; form_secretNumber := drawn;
                     form_isActive := true |}
        (setModalMode create
           (setCurrentUser None st))),
   []).

Definition handleEditUser (user : User) (st : ui) : ui * list call :=
  (setIsModalOpen true
     (setFormData {| form_name := name user; form_email := email user;
                     form_role := role user; form_password := password user;
                     form_secretNumber := secretNumber user;
                     form_isActive := isActive user |}
        (setModalMode edit
           (setCurrentUser (Some user) st))),
   []).

Definition handleSubmit (st : ui) : ui * list call :=
  (setIsModalOpen false st,
   preventDefault ::
   match modalMode st with
   | create => [onAddUser (formData st)]
   | edit =>
       match currentUser st with
       | Some u => [onEditUser (spread u (formData st))]
       | None => []
       end
   end).

(** The two lists the component renders. *)
Definition activeUsers (users : list User) : list User :=
  filter (fun user => isActive user) users.

Definition inactiveUsers (users : list User) : list User :=
  filter (fun user => negb (isActive user)) users.

(** What the rendered elements are wired to.  [ClickEdit] and [ClickCopy]
    exist for the users of [activeUsers], [ClickToggle] and [ClickDelete]
    for every user; the [Change] events are the [onChange] of the form's
    inputs and the [onValueChange] of its role selector. *)
Inductive event : Type :=
| ClickNewUser (drawn : string)
| ClickCopy (user : User)
| ClickEdit (user : User)
| ClickToggle (user : User)
| ClickDelete (user : User)
| OpenChange (open : bool)
| ChangeName (value : string)
| ChangeEmail (value : string)
| ChangePassword (value : string)
| ChangeRole (value : Role)
| ChangeSecretNumber (value : string)
| ClickGenerate (drawn : string)
| ClickCancel
| Submit.

(** One event, handled with the state of the current render. *)
Definition dispatch (st : ui) (ev : event) : ui * list call :=
  let f := formData st in
  match ev with
  | ClickNewUser drawn => handleAddUser drawn st
  | ClickCopy user => copySecretNumber (secretNumber user) st
  | ClickEdit user => handleEditUser user st
  | ClickToggle user => (st, [onToggleUserStatus (id user)])
  | ClickDelete user => (st, [onDeleteUser (id user)])
  | OpenChange open => (setIsModalOpen open st, [])
  | ChangeName value =>
      (setFormData {| form_name := value; form_email := form_email f;
                      form_role := form_role f; form_password := form_password f;
                      form_secretNumber := form_secretNumber f;
                      form_isActive := form_isActive f |} st, [])
  | ChangeEmail value =>
      (setFormData {| form_name := form_name f; form_email := value;
                      form_role := form_role f; form_password := form_password f;
                      form_secretNumber := form_secretNumber f;
                      form_isActive := form_isActive f |} st, [])
  | ChangePassword value =>
      (setFormData {| form_name := form_name f; form_email := form_email f;
                      form_role := form_role f; form_password := value;
                      form_secretNumber := form_secretNumber f;
                      form_isActive := form_isActive f |} st, [])
  | ChangeRole value =>
      (setFormData {| form_name := form_name f; form_email := form_email f;
                      form_role := value; form_password := form_password f;
                      form_secretNumber := form_secretNumber f;
                      form_isActive := form_isActive f |} st, [])
  | ChangeSecretNumber value =>
      (setFormData {| form_name := form_name f; form_email := form_email f;
                      form_role := form_role f; form_password := form_password f;
                      form_secretNumber := value;
                      form_isActive := form_isActive f |} st, [])
  | ClickGenerate drawn => generateSecretNumber drawn st
  | ClickCancel => (setIsModalOpen false st, [])
  | Submit => handleSubmit st
  end.

(** A sequence of events, one render apart; the calls are collected in
    order. *)
Fixpoint interact (st : ui) (evs : list event) : ui * list call :=
  match evs with
  | [] => (st, [])
  | ev :: rest =>
      let (st1, calls1) := dispatch st ev in
      let (st2, calls2) := interact st1 rest in
      (st2, calls1 ++ calls2)
  end.

Definition is_submit (ev : event) : bool :=
  match ev with
  | Submit => true
  | _ => false
  end.

(** A call that hands a user to the parent to be added or changed. *)
Definition saves_user (c : call) : bool :=
  match c with
  | onAddUser _ | onEditUser _ => true
  | _ => false
  end.

(** An edit of a form field: an input's [onChange], the role selector,
    or the button that draws a new secret number. *)
Definition is_form_change (ev : event) : bool :=
  match ev with
  | ChangeName _ | ChangeEmail _ | ChangePassword _ | ChangeRole _
  | ChangeSecretNumber _ | ClickGenerate _ => true
  | _ => false
  end.

(** Editing has a user to edit, whose active flag the form carries; a new
    user's form is active and has no user behind it. *)
Definition coherent (st : ui) : Prop :=
  match modalMode st with
  | create => currentUser st = None /\ form_isActive (formData st) = true
  | edit =>
      exists u, currentUser st = Some u /\
                form_isActive (formData st) = isActive u
  end.

Module Sample.

Definition zainab : User :=
  {| id := "7"; name := "Zainab"; email := "z@example.com"; role := admin;
     password := "pw"; secretNumber := "123456";
     createdAt := "2024-03-01"; isActive := true |}.

Definition rename_and_regenerate : list event :=
  [ClickEdit zainab; ChangeName "Zaynab"; ClickGenerate "654321"; Submit].

End Sample.

End UserManagement.

(** * Properties *)

Import useAuth.

(** ** The effect trees *)

Lemma or_else_empty (v : option string) :
  or_else v "" = match v with Some s => s | None => "" end.
Proof.
  destruct v as [s|]; [|reflexivity].
  unfold or_else, truthy.
  destruct (String.eqb_spec s ""); simpl; congruence.
Qed.

(** ** The event loop *)

Lemma inflight_run_sync (p : async unit) (w : world) :
  inflight (run_sync p w) =
  inflight w ++ match first_suspension p with Some s => [s] | None => [] end.
Proof.
  revert w.
  induction p as [a|e|rq k _|u k IH|t k IH|l k IH]; intros w; simpl;
    try (rewrite IH; reflexivity); auto using app_nil_r.
Qed.

Lemma requests_app (tr1 tr2 : list effect) :
  requests (tr1 ++ tr2) = requests tr1 ++ requests tr2.
Proof.
  induction tr1 as [|[rq|u|t|l] tr1 IH]; simpl; congruence.
Qed.

(** A timer task leaves the store and the timer queue alone and adds one
    suspended [fetchProfile] and its query. *)
Lemma run_sync_fetchProfile (userId : string) (userEmail : option string) :
  exists s,
    first_suspension (fetchProfile userId userEmail) = Some s /\
    forall w,
      state (run_sync (fetchProfile userId userEmail) w) = state w /\
      timers (run_sync (fetchProfile userId userEmail) w) = timers w /\
      inflight (run_sync (fetchProfile userId userEmail) w) = inflight w ++ [s] /\
      requests (history (run_sync (fetchProfile userId userEmail) w)) =
      requests (history w ++ [Requested (SelectProfiles userId)]).
Proof.
  eexists; split; [reflexivity|].
  intros w; repeat split.
  simpl. rewrite !requests_app. simpl. now rewrite app_nil_r.
Qed.

(** When the query of a suspended [fetchProfile] settles, the body writes
    the profile of the first delivered row, or none, then clears
    [loading]; it touches nothing else and suspends no more. *)
Lemma settle_fetch (s : suspended) (x : settlement) (p : async unit) :
  fetching s ->
  resume s x = Some p ->
  forall w,
    state (run_sync p w) =
      {| user := user (state w); session := session (state w);
         profile := option_map profile_of_row (hd_error (rows_of x));
         loading := false |} /\
    timers (run_sync p w) = timers w /\
    inflight (run_sync p w) = inflight w /\
    requests (history (run_sync p w)) = requests (history w).
Proof.
  intros (userId & userEmail & Hs) Hp w.
  simpl in Hs. injection Hs as <-.
  destruct x as [[a|r|[d [err|]]]|e]; simpl in Hp; try discriminate;
    injection Hp as <-.
  - simpl. repeat split.
    rewrite !requests_app; simpl; now rewrite !app_nil_r.
  - destruct d as [[|row rest]|]; simpl; repeat split;
      rewrite !requests_app; simpl; now rewrite !app_nil_r.
  - simpl. repeat split.
    rewrite !requests_app; simpl; now rewrite !app_nil_r.
Qed.

Lemma Forall_remove_nth {A : Type} (P : A -> Prop) (i : nat) (l : list A) :
  Forall P l -> Forall P (remove_nth i l).
Proof.
  intros H. revert i.
  induction H as [|a l Ha Hl IH]; intros [|i]; simpl; auto.
Qed.

Lemma onAuthStateChange_effect (ev : string) (s : option Session) (w : world) :
  state (run_sync (onAuthStateChange ev s) w) =
    match s with
    | Some s' =>
        {| user := Some (session_user s'); session := Some s';
           profile := profile (state w); loading := loading (state w) |}
    | None =>
        {| user := None; session := None; profile := None; loading := false |}
    end /\
  timers (run_sync (onAuthStateChange ev s) w) =
    timers w ++
    match s with
    | Some s' => [FetchProfileTask (user_id (session_user s'))
                                   (user_email (session_user s'))]
    | None => []
    end /\
  inflight (run_sync (onAuthStateChange ev s) w) = inflight w /\
  requests (history (run_sync (onAuthStateChange ev s) w)) = requests (history w).
Proof.
  destruct s as [s'|]; simpl; repeat split;
    rewrite ?app_nil_r, ?requests_app; simpl; now rewrite ?app_nil_r.
Qed.

Lemma run_sync_ends_well (p : async unit) :
  forall w : world,
    ends_well p (state w) ->
    Forall waits_well (inflight w) ->
    keeps_identity (run_sync p w).
Proof.
  unfold keeps_identity.
  induction p as [a|e|rq k _|u k IH|t k IH|l k IH]; intros w Hp Hw; simpl in *.
  - auto.
  - auto.
  - destruct Hp as [Hinv Hk]. split; [exact Hinv|].
    apply Forall_app; split; [exact Hw|].
    constructor; [exact Hk|constructor].
  - apply IH; assumption.
  - apply IH; assumption.
  - apply IH; assumption.
Qed.

Lemma onAuthStateChange_ends_well (ev : string) (s : option Session) (st : store) :
  ends_well (onAuthStateChange ev s) st.
Proof. destruct s; reflexivity. Qed.

Lemma absent_profile_is_safe (u : option User) (s : option Session) (b : bool) :
  profile_needs_identity
    {| user := u; session := s; profile := None; loading := b |} = true.
Proof. unfold profile_needs_identity. simpl. apply orb_true_r. Qed.

Lemma fetchProfile_ends_well (userId : string) (userEmail : option string)
    (st : store) :
  profile_needs_identity st = true ->
  ends_well (fetchProfile userId userEmail) st.
Proof.
  intros Hst. simpl. split; [exact Hst|].
  intros x o s' Ht Hinv Hsafe.
  destruct x as [[a|r|[d [err|]]]|e]; simpl in Ht; try discriminate;
    injection Ht as <-; simpl.
  - apply absent_profile_is_safe.
  - destruct d as [[|row rest]|]; simpl; try apply absent_profile_is_safe.
    unfold settle_safe in Hsafe. simpl in Hsafe.
    rewrite andb_true_r, orb_false_r in Hsafe.
    unfold profile_needs_identity. simpl. now rewrite Hsafe.
  - apply absent_profile_is_safe.
Qed.

Lemma initializeAuth_ends_well (st : store) :
  profile_needs_identity st = true ->
  ends_well initializeAuth st.
Proof.
  intros Hst. simpl. split; [exact Hst|].
  intros x o s' Ht Hinv Hsafe.
  destruct x as [[a|[so [err|]]|q]|e]; simpl in Ht; try discriminate;
    injection Ht as <-; simpl.
  - split; [exact Hinv|].
    intros x1 o1 s1 Ht1 Hinv1 _.
    destruct x1 as [[a1|r1|q1]|e1]; simpl in Ht1; try discriminate;
      injection Ht1 as <-; simpl; [reflexivity|].
    split; [exact Hinv1|].
    intros x2 o2 s2 Ht2 Hinv2 _.
    destruct x2 as [[a2|r2|q2]|e2]; simpl in Ht2; try discriminate;
      injection Ht2 as <-; simpl; [reflexivity|exact Hinv2].
  - destruct so as [s|]; simpl; [reflexivity|].
    unfold settle_safe in Hsafe. simpl in Hsafe.
    apply andb_prop in Hsafe as [_ Hp].
    unfold profile_needs_identity. simpl. exact Hp.
  - split; [exact Hinv|].
    intros x1 o1 s1 Ht1 Hinv1 _.
    destruct x1 as [[a1|r1|q1]|e1]; simpl in Ht1; try discriminate;
      injection Ht1 as <-; simpl; [reflexivity|exact Hinv1].
Qed.

Lemma step_keeps_identity (w : world) (e : event) :
  keeps_identity w ->
  settles_safely w e = true ->
  keeps_identity (step w e).
Proof.
  intros [Hinv Hw] Hguard.
  destruct e as [ev s| |i x]; cbn [step].
  - apply run_sync_ends_well;
      [apply onAuthStateChange_ends_well | exact Hw].
  - destruct (timers w) as [|[userId userEmail] ts]; [now split|].
    cbn [task_body].
    apply run_sync_ends_well;
      [apply fetchProfile_ends_well; exact Hinv | exact Hw].
  - destruct (nth_error (inflight w) i) as [[rq k]|] eqn:Hi; [|now split].
    cbn [resume].
    destruct (typed rq x) as [o|] eqn:Ht; cbn [option_map]; [|now split].
    assert (Hk : waits_well (Suspended rq k)).
    { eapply Forall_forall; [exact Hw|]. eapply nth_error_In; exact Hi. }
    apply run_sync_ends_well; cbn [state inflight].
    + exact (Hk x o (state w) Ht Hinv Hguard).
    + now apply Forall_remove_nth.
Qed.

Lemma run_keeps_identity (evs : list event) :
  forall (w : world) (n : nat),
    keeps_identity w ->
    all_settle_safely w evs = true ->
    keeps_identity (run w (firstn n evs)).
Proof.
  induction evs as [|e evs IH]; intros w n Hw Hguard.
  - now rewrite firstn_nil.
  - destruct n as [|n]; [exact Hw|].
    simpl in Hguard. apply andb_prop in Hguard as [He Hrest].
    simpl. apply IH; [|exact Hrest].
    now apply step_keeps_identity.
Qed.

Lemma mounting_keeps_identity : keeps_identity mounting.
Proof.
  unfold mounting.
  apply run_sync_ends_well;
    [apply initializeAuth_ends_well; reflexivity | constructor].
Qed.

(** ** The session store *)

(** C1, as stated, fails: Alice signs in, her profile query is sent, she
    signs out while it is in flight, and the reply then writes her profile
    into a store whose Identity is absent.  It is so on the subscribed
    hook alone, and on the hook from its mount on, after [initializeAuth]
    has found no session. *)
Lemma late_reply_sets_profile_without_identity :
  (user (state (run mounted Sample.late_reply)) = None /\
   profile (state (run mounted Sample.late_reply)) =
     Some (profile_of_row Sample.alice_row) /\
   profile_needs_identity (state (run mounted Sample.late_reply)) = false) /\
  (user (state (run mounting (Settles 0 (session_settles None) :: Sample.late_reply)))
     = None /\
   profile (state (run mounting (Settles 0 (session_settles None) :: Sample.late_reply)))
     = Some (profile_of_row Sample.alice_row) /\
   profile_needs_identity
     (state (run mounting (Settles 0 (session_settles None) :: Sample.late_reply)))
     = false).
Proof. repeat split. Qed.

(** C1, amended: from the mount on, with [initializeAuth] started and the
    callback subscribed, after every transition of every sequence of auth
    events, timer turns and settlements in which no profile query
    delivers a row while Identity is absent, and no session reply with
    neither session nor error arrives while Profile is present, Profile is
    absent whenever Identity is absent. *)
Theorem profile_absent_without_identity (evs : list event) (n : nat) :
  all_settle_safely mounting evs = true ->
  profile_needs_identity (state (run mounting (firstn n evs))) = true.
Proof.
  intros Hguard.
  apply (run_keeps_identity evs mounting n mounting_keeps_identity Hguard).
Qed.

Lemma profile_absent_without_identity_witness :
  all_settle_safely mounting
    (Settles 0 (session_settles (Some Sample.alice_session)) ::
     TimerFires :: Settles 0 Sample.one_row ::
     Sample.signed_in ++ [AuthStateChange "SIGNED_OUT" None]) = true /\
  profile_needs_identity
    (state
       (run mounting
          (firstn 7
             (Settles 0 (session_settles (Some Sample.alice_session)) ::
              TimerFires :: Settles 0 Sample.one_row ::
              Sample.signed_in ++ [AuthStateChange "SIGNED_OUT" None]))))
  = true.
Proof.
  split; [reflexivity|].
  apply (profile_absent_without_identity
           (Settles 0 (session_settles (Some Sample.alice_session)) ::
            TimerFires :: Settles 0 Sample.one_row ::
            Sample.signed_in ++ [AuthStateChange "SIGNED_OUT" None]) 7).
  reflexivity.
Defined.

(** A whole fetch from a world [w]: the task is queued alone, its timer
    fires, and its query, the last one in flight, settles with [x]. *)
Lemma fetch_round_trip (w : world) (userId : string) (userEmail : option string)
    (x : settlement) :
  state (run (with_timers w [FetchProfileTask userId userEmail])
             [TimerFires; Settles (length (inflight w)) x]) =
  match typed (SelectProfiles userId) x with
  | Some _ =>
      {| user := user (state w); session := session (state w);
         profile := option_map profile_of_row (hd_error (rows_of x));
         loading := false |}
  | None => state w
  end.
Proof.
  destruct (run_sync_fetchProfile userId userEmail) as (s & Hs & Hrun).
  unfold run, with_timers.
  cbn [fold_left step task_body state timers inflight history unhandled].
  set (w0 := {| state := state w; timers := []; inflight := inflight w;
                history := history w; unhandled := unhandled w |}).
  destruct (Hrun w0) as (Hst & Htm & Hin & _).
  set (w1 := run_sync (fetchProfile userId userEmail) w0) in *.
  rewrite Hin. cbn [inflight w0].
  rewrite nth_error_app2, Nat.sub_diag by reflexivity. cbn [nth_error].
  assert (Hres : resume s x =
                 match typed (SelectProfiles userId) x with
                 | Some o => resume s x
                 | None => None
                 end).
  { simpl in Hs. injection Hs as <-. cbn [resume].
    destruct (typed (SelectProfiles userId) x); reflexivity. }
  destruct (resume s x) as [p|] eqn:Hp.
  - destruct (typed (SelectProfiles userId) x); [|discriminate].
    assert (Hf : fetching s) by (exists userId, userEmail; exact Hs).
    destruct (settle_fetch s x p Hf Hp
                {| state := state w1; timers := timers w1;
                   inflight := remove_nth (length (inflight w)) (inflight w ++ [s]);
                   history := history w1; unhandled := unhandled w1 |})
      as (Hst' & _).
    rewrite Hst'. cbn [state]. rewrite Hst. reflexivity.
  - simpl in Hs. injection Hs as <-. cbn [resume] in Hp.
    destruct (typed (SelectProfiles userId) x); [discriminate|].
    exact Hst.
Qed.

(** C2, as stated, fails: a lookup that returns two rows leaves Profile
    present, built from the first of them. *)
Lemma two_rows_leave_profile_present :
  let w := run mounted [AuthStateChange "SIGNED_IN" (Some Sample.alice_session);
                        TimerFires; Settles 0 Sample.two_rows] in
  length (rows_of Sample.two_rows) = 2 /\
  user (state w) = Some Sample.alice /\
  profile (state w) = Some (profile_of_row Sample.alice_row).
Proof. repeat split. Qed.

(** C2, amended: when the query of a [fetchProfile] in flight settles while
    Identity is present, Identity stays as it was, and Profile is present
    afterwards if and only if the query resolved without error with one or
    more rows; it is then the profile of the first row.  With zero rows,
    no data, an error or a rejection, Profile is absent. *)
Theorem profile_present_iff_rows (w : world) (i : nat) (s : suspended)
    (o : outcome QueryReply) (u : User) :
  nth_error (inflight w) i = Some s ->
  fetching s ->
  user (state w) = Some u ->
  let w' := step w (Settles i (query_settles o)) in
  user (state w') = Some u /\
  ((exists p, profile (state w') = Some p) <->
   (user (state w') <> None /\
    exists row rest,
      o = Resolved {| data := Some (row :: rest); query_error := None |})) /\
  (forall row rest,
      o = Resolved {| data := Some (row :: rest); query_error := None |} ->
      profile (state w') = Some (profile_of_row row)).
Proof.
  intros Hi Hs Hu w'.
  assert (Hp : exists p, resume s (query_settles o) = Some p).
  { destruct Hs as (userId & userEmail & Hs).
    simpl in Hs. injection Hs as <-.
    destruct o; simpl; eauto. }
  destruct Hp as (p & Hp).
  assert (Hst : state w' =
                {| user := Some u; session := session (state w);
                   profile := option_map profile_of_row
                                (hd_error (rows_of (query_settles o)));
                   loading := false |}).
  { unfold w'. cbn [step]. rewrite Hi, Hp.
    match goal with
    | |- state (run_sync p ?w0) = _ =>
        destruct (settle_fetch s _ p Hs Hp w0) as (H & _); rewrite H
    end.
    cbn [state]. now rewrite Hu. }
  rewrite Hst. cbn [user profile].
  split; [reflexivity|]. split.
  - split.
    + intros (q & Hq). split; [discriminate|].
      destruct o as [[[[|row rest]|] [err|]]|e]; simpl in Hq; try discriminate.
      now exists row, rest.
    + intros (_ & row & rest & ->). simpl. eauto.
  - intros row rest ->. reflexivity.
Qed.

Lemma profile_present_iff_rows_witness :
  let w := run mounted [AuthStateChange "SIGNED_IN" (Some Sample.alice_session);
                        TimerFires] in
  let w' := step w (Settles 0 Sample.two_rows) in
  user (state w) = Some Sample.alice /\
  user (state w') = Some Sample.alice /\
  profile (state w') = Some (profile_of_row Sample.alice_row).
Proof.
  intros w w'.
  destruct (profile_present_iff_rows w 0 _
              (Resolved {| data := Some [Sample.alice_row; Sample.other_row];
                           query_error := None |})
              Sample.alice eq_refl
              (ex_intro _ "u1" (ex_intro _ (Some "a@example.com") eq_refl))
              eq_refl)
    as (Hu & _ & Hrow).
  split; [reflexivity|]. split; [exact Hu|].
  exact (Hrow Sample.alice_row [Sample.other_row] eq_refl).
Defined.



(** Each timer turn runs the oldest task, which sends its query; the
    queued tasks send theirs in the order they were queued. *)
Lemma timers_drain (ts : list task) :
  forall w : world,
    timers w = ts ->
    requests (history (run w (repeat TimerFires (length ts)))) =
    requests (history w) ++ map task_request ts.
Proof.
  induction ts as [|[userId userEmail] ts IH]; intros w Hts.
  - simpl. now rewrite app_nil_r.
  - cbn [length repeat]. unfold run. cbn [fold_left step].
    rewrite Hts. cbn [task_body].
    destruct (run_sync_fetchProfile userId userEmail) as (s & _ & Hrun).
    match goal with
    | |- context [run_sync _ ?w0] => destruct (Hrun w0) as (_ & Htm & _ & Hrq)
    end.
    fold (run (run_sync (fetchProfile userId userEmail)
                 {| state := state w; timers := ts; inflight := inflight w;
                    history := history w; unhandled := unhandled w |})
              (repeat TimerFires (length ts))).
    rewrite IH by exact Htm.
    rewrite Hrq. cbn [history]. rewrite requests_app. simpl.
    now rewrite <- app_assoc.
Qed.

(** C7: the auth-change callback reaches no [await] and sends no request
    to the backend client; it leaves nothing in flight.  The profile fetch
    of an event with a session is only queued as a timer task, behind the
    tasks queued before it, and its query is sent by the later timer turn
    that runs it. *)
Theorem callback_defers_the_fetch (w : world) (ev : string) (s : option Session) :
  let w' := step w (AuthStateChange ev s) in
  await_free (onAuthStateChange ev s) = true /\
  first_suspension (onAuthStateChange ev s) = None /\
  requests (history w') = requests (history w) /\
  inflight w' = inflight w /\
  timers w' =
    timers w ++
    match s with
    | Some s' => [FetchProfileTask (user_id (session_user s'))
                                   (user_email (session_user s'))]
    | None => []
    end /\
  requests (history (run w' (repeat TimerFires (length (timers w'))))) =
    requests (history w) ++ map task_request (timers w').
Proof.
  intros w'.
  destruct (onAuthStateChange_effect ev s w) as (_ & Htm & Hin & Hrq).
  split; [destruct s; reflexivity|].
  split; [destruct s; reflexivity|].
  split; [exact Hrq|]. split; [exact Hin|]. split; [exact Htm|].
  rewrite (timers_drain (timers w') w' eq_refl).
  unfold w'. cbn [step]. now rewrite Hrq.
Qed.

(** C9: the store a fetch leaves does not depend on [userEmail].  From the
    same world and for the same settlement of the query, two fetches for
    the same [userId] with different [userEmail] end in the same store; the
    email of the profile written is the one of the first row. *)
Theorem fetchProfile_ignores_userEmail (w : world) (userId : string)
    (userEmail1 userEmail2 : option string) (x : settlement) :
  let fetched userEmail :=
    run (with_timers w [FetchProfileTask userId userEmail])
        [TimerFires; Settles (length (inflight w)) x] in
  state (fetched userEmail1) = state (fetched userEmail2) /\
  (forall (row : ProfileRow) (rest : list ProfileRow),
     option_map email
       (profile
          (state
             (run (with_timers w [FetchProfileTask userId userEmail1])
                  [TimerFires;
                   Settles (length (inflight w))
                     (Fulfil (QueryPayload {| data := Some (row :: rest);
                                              query_error := None |}))]))) =
     Some (row_email row)).
Proof.
  intros fetched. unfold fetched.
  rewrite !fetch_round_trip.
  split; [reflexivity|].
  intros row rest. rewrite fetch_round_trip. reflexivity.
Qed.

(** C10: when the query resolves without error with one or more rows, every
    field of the Profile that [fetchProfile] writes is read off the first
    row, whatever [userId] was asked for; so its [id] is the row's, and
    there are a [userId] and a row for which it is not [userId]. *)
Theorem profile_copied_from_first_row :
  (forall (w : world) (userId : string) (userEmail : option string)
          (row : ProfileRow) (rest : list ProfileRow),
     profile
       (state
          (run (with_timers w [FetchProfileTask userId userEmail])
               [TimerFires;
                Settles (length (inflight w))
                  (Fulfil (QueryPayload {| data := Some (row :: rest);
                                           query_error := None |}))])) =
     Some {| id := row_id row;
             name := row_name row;
             email := row_email row;
             role := row_role row;
             secret_number :=
               match row_secret_number row with Some sn => sn | None => "" end;
             is_active := row_is_active row;
             created_at := row_created_at row;
             updated_at := row_updated_at row |}) /\
  (exists p,
     profile
       (state
          (run (with_timers mounted [FetchProfileTask "u1" None])
               [TimerFires;
                Settles 0
                  (Fulfil (QueryPayload {| data := Some [Sample.other_row];
                                           query_error := None |}))])) = Some p /\
     id p = "u2" /\ id p <> "u1").
Proof.
  split.
  - intros w userId userEmail row rest.
    rewrite fetch_round_trip. cbn.
    unfold profile_of_row. now rewrite or_else_empty.
  - eexists. split; [reflexivity|]. split; [reflexivity|discriminate].
Qed.

(** The scenarios of the specification: a sign-in whose profile query
    returns one admin row, and a sign-out. *)
Example scenario_signed_in :
  let s := state (run mounted Sample.signed_in) in
  user s = Some Sample.alice /\
  option_map role (profile s) = Some "admin" /\
  option_map secret_number (profile s) = Some "" /\
  loading s = false.
Proof. repeat split. Qed.

Example scenario_signed_out :
  state (run mounted (Sample.signed_in ++ [AuthStateChange "SIGNED_OUT" None])) =
  {| user := None; session := None; profile := None; loading := false |}.
Proof. reflexivity. Qed.

Example scenario_no_rows :
  let s := state (run mounted [AuthStateChange "SIGNED_IN" (Some Sample.alice_session);
                               TimerFires; Settles 0 Sample.no_rows]) in
  user s = Some Sample.alice /\ profile s = None /\ loading s = false.
Proof. repeat split. Qed.

(** ** The public operations, against any backend *)

Example signIn_on_a_quiet_backend :
  run_async Sample.quiet [] (signIn "a@example.com" "secret") =
  (Resolved {| error := None |},
   [Requested SignOut; Requested (SignInWithPassword "a@example.com" "secret")]).
Proof. reflexivity. Qed.


(** [signIn] catches whatever its two requests throw: its promise always
    resolves. *)
Lemma signIn_resolves (b : backend) (sent : list request) (email password : string) :
  exists r, fst (run_async b sent (signIn email password)) = Resolved r.
Proof.
  unfold signIn, await. simpl.
  destruct (b sent SignOut) as [r0|e0]; simpl; [|eauto].
  destruct (b (sent ++ [SignOut]) (SignInWithPassword email password)) as [r1|e1];
    simpl; eauto.
Qed.

(** [signUp] and [signOut] resolve with the client's error value whenever
    their request resolves. *)
Lemma signUp_signOut_resolve_when_backend_does (b : backend) (sent : list request)
    (origin email password name : string) :
  (forall r, b sent (SignUp email password name (origin ++ "/")) = Resolved r ->
     fst (run_async b sent (signUp origin email password name)) =
     Resolved {| error := option_map OfClient (auth_error r) |}) /\
  (forall r, b sent SignOut = Resolved r ->
     fst (run_async b sent signOut) =
     Resolved {| error := option_map OfClient (auth_error r) |}).
Proof.
  split; intros r Hr; unfold signUp, signOut, await; simpl; now rewrite Hr.
Qed.

(** C3: when the backend call rejects, [signIn] returns the caught value
    as its error, but [signUp] and [signOut] have no [try]: the rejection
    escapes them and their promise rejects. *)
Theorem signUp_signOut_throw_when_backend_rejects :
  fst (run_async Sample.offline [] (signIn "a@example.com" "secret")) =
    Resolved {| error := Some (Caught "Failed to fetch") |} /\
  fst (run_async Sample.offline []
         (signUp "https://app.example" "a@example.com" "secret" "Alice")) =
    Rejected "Failed to fetch" /\
  fst (run_async Sample.offline [] signOut) = Rejected "Failed to fetch".
Proof. repeat split. Qed.

(** C5: against every backend, [fetchProfile] sends its one query and
    returns without throwing.  It calls [setProfile] once: with no profile
    when the query rejects, carries an error, or carries no row, and
    otherwise with the first row, its role passed through as it is and its
    [secret_number] replaced by the empty string when it is null or empty.
    Then it calls [setLoading(false)], once, as the last thing it does. *)
Theorem fetchProfile_outcomes (b : backend) (sent : list request)
    (userId : string) (userEmail : option string) :
  let done := run_async b sent (fetchProfile userId userEmail) in
  fst done = Resolved tt /\
  requests (snd done) = [SelectProfiles userId] /\
  setters (snd done) =
    [SetProfile
       match b sent (SelectProfiles userId) with
       | Rejected _ => None
       | Resolved r =>
           match query_error r with
           | Some _ => None
           | None =>
               match data r with
               | None => None
               | Some [] => None
               | Some (row :: _) =>
                   Some {| id := row_id row;
                           name := row_name row;
                           email := row_email row;
                           role := row_role row;
                           secret_number :=
                             match row_secret_number row with
                             | Some sn => sn
                             | None => ""
                             end;
                           is_active := row_is_active row;
                           created_at := row_created_at row;
                           updated_at := row_updated_at row |}
               end
           end
       end;
     SetLoading false] /\
  length (filter sets_loading (setters (snd done))) = 1 /\
  last (snd done) (Requested GetSession) = DidSet (SetLoading false).
Proof.
  intros done. unfold done, fetchProfile, await. simpl.
  destruct (b sent (SelectProfiles userId)) as [[d [err|]]|e]; simpl.
  - repeat split.
  - destruct d as [[|row rest]|]; simpl; repeat split.
    unfold profile_of_row. now rewrite or_else_empty.
  - repeat split.
Qed.

(** C6: against every backend and for every email and password, the first
    request [signIn] sends is the sign-out; the credential sign-in follows
    it when the sign-out request resolves, and is not sent when it
    rejects.  So a sign-in request in the trace always has the sign-out
    request strictly before it. *)
Theorem signIn_signs_out_first (b : backend) (sent : list request)
    (email password : string) :
  let trace := requests (snd (run_async b sent (signIn email password))) in
  trace =
    SignOut ::
    match b sent SignOut with
    | Resolved _ => [SignInWithPassword email password]
    | Rejected _ => []
    end /\
  (forall n, nth_error trace n = Some (SignInWithPassword email password) ->
     exists m, m < n /\ nth_error trace m = Some SignOut).
Proof.
  intros trace.
  assert (Htrace : trace =
                   SignOut ::
                   match b sent SignOut with
                   | Resolved _ => [SignInWithPassword email password]
                   | Rejected _ => []
                   end).
  { unfold trace, signIn, await. simpl.
    destruct (b sent SignOut) as [r0|e0]; simpl; [|reflexivity].
    destruct (b (sent ++ [SignOut]) (SignInWithPassword email password));
      reflexivity. }
  split; [exact Htrace|].
  intros n Hn. rewrite Htrace in *.
  destruct n as [|n]; [discriminate|].
  exists 0. split; [lia|reflexivity].
Qed.

(** ** The notification handler *)

(** C8: for every list of notifications, the unread count the handler
    exposes is the number of entries whose read flag is false. *)
Theorem unreadNotifications_counts_unread
    (notifications : list NotificationHandler.Notification) :
  NotificationHandler.unreadNotifications notifications =
  NotificationHandler.spec_unread_count notifications /\
  NotificationHandler.unreadNotifications notifications =
  count_occ Bool.bool_dec (map NotificationHandler.read notifications) false.
Proof.
  unfold NotificationHandler.unreadNotifications.
  induction notifications as [|n rest [IH1 IH2]]; [split; reflexivity|].
  simpl. destruct (NotificationHandler.read n); simpl.
  - split; assumption.
  - split; f_equal; assumption.
Qed.

(** * Further properties of the hook *)

(** ** [initializeAuth] against any backend *)

(** X1: [initializeAuth] asks for the session first.  It requests a
    sign-out exactly when the session retrieval fails, by rejecting or by
    resolving with an error; it requests a second one when the retrieval
    resolved with an error and the first sign-out then rejects, because
    the [catch] runs its own.  It sends nothing else. *)
Theorem initializeAuth_requests (b : backend) (sent : list request) :
  requests (snd (run_async b sent initializeAuth)) =
  GetSession ::
  match b sent GetSession with
  | Resolved r =>
      match session_error r with
      | None => []
      | Some _ =>
          SignOut ::
          match b (sent ++ [GetSession]) SignOut with
          | Resolved _ => []
          | Rejected _ => [SignOut]
          end
      end
  | Rejected _ => [SignOut]
  end.
Proof.
  unfold initializeAuth, await. simpl.
  destruct (b sent GetSession) as [[so [err|]]|e]; simpl.
  - destruct (b (sent ++ [GetSession]) SignOut) as [a|e1]; simpl;
      [reflexivity|].
    destruct (b ((sent ++ [GetSession]) ++ [SignOut]) SignOut); reflexivity.
  - destruct so; reflexivity.
  - destruct (b (sent ++ [GetSession]) SignOut); reflexivity.
Qed.

(** X2: what [initializeAuth] does to the store, against every backend.
    With a session it sets Session and Identity, queues the fetch of that
    user's profile and leaves Profile and Loading alone.  Without a session
    it sets both to null and clears Loading, and leaves Profile alone.
    When the retrieval fails it clears the whole store provided the
    sign-out it awaits last resolves; when that sign-out rejects, the
    rejection escapes [initializeAuth] and no setter has been called, so
    Loading stays as it was. *)
Theorem initializeAuth_outcomes (b : backend) (sent : list request) :
  let done := run_async b sent initializeAuth in
  let cleared_or_rejected (last_sign_out : outcome AuthReply) :=
    scheduled (snd done) = [] /\
    match last_sign_out with
    | Resolved _ => fst done = Resolved tt /\ setters (snd done) = clears
    | Rejected e => fst done = Rejected e /\ setters (snd done) = []
    end in
  match b sent GetSession with
  | Resolved r =>
      match session_error r with
      | None =>
          fst done = Resolved tt /\
          match reply_session r with
          | Some s =>
              setters (snd done) =
                [SetSession (Some s); SetUser (Some (session_user s))] /\
              scheduled (snd done) =
                [FetchProfileTask (user_id (session_user s))
                                  (user_email (session_user s))]
          | None =>
              setters (snd done) =
                [SetSession None; SetUser None; SetLoading false] /\
              scheduled (snd done) = []
          end
      | Some _ =>
          match b (sent ++ [GetSession]) SignOut with
          | Resolved a => cleared_or_rejected (Resolved a)
          | Rejected _ =>
              cleared_or_rejected (b (sent ++ [GetSession; SignOut]) SignOut)
          end
      end
  | Rejected _ => cleared_or_rejected (b (sent ++ [GetSession]) SignOut)
  end.
Proof.
  intros done cleared_or_rejected.
  unfold cleared_or_rejected, done, initializeAuth, await, clears. simpl.
  destruct (b sent GetSession) as [[so [err|]]|e]; simpl.
  - destruct (b (sent ++ [GetSession]) SignOut) as [a|e1]; simpl;
      [repeat split|].
    replace (sent ++ [GetSession; SignOut])
      with ((sent ++ [GetSession]) ++ [SignOut])
      by now rewrite <- app_assoc.
    destruct (b ((sent ++ [GetSession]) ++ [SignOut]) SignOut);
      simpl; repeat split.
  - destruct so; simpl; repeat split.
  - destruct (b (sent ++ [GetSession]) SignOut); simpl; repeat split.
Qed.

(** ** The hook from its mount on *)

Lemma run_app (w : world) (evs1 evs2 : list event) :
  run w (evs1 ++ evs2) = run (run w evs1) evs2.
Proof. apply fold_left_app. Qed.

(** X3: mounting with a stored session.  When [getSession] resolves with a
    session and the timer and the profile query it leads to have run their
    course, Identity is the session's user, Loading is false, and Profile
    is the first row the query delivered, or absent when it delivered
    none. *)
Theorem mount_with_session_loads_profile (s : Session) (o : outcome QueryReply) :
  state
    (run mounting
       [Settles 0 (Fulfil (SessionPayload {| reply_session := Some s;
                                             session_error := None |}));
        TimerFires;
        Settles 0 (query_settles o)]) =
  {| user := Some (session_user s);
     session := Some s;
     profile := option_map profile_of_row (hd_error (rows_of (query_settles o)));
     loading := false |}.
Proof.
  set (got := Settles 0 (Fulfil (SessionPayload {| reply_session := Some s;
                                                   session_error := None |}))).
  set (w1 := step mounting got).
  change (run mounting [got; TimerFires; Settles 0 (query_settles o)])
    with (run (with_timers w1 [FetchProfileTask (user_id (session_user s))
                                                (user_email (session_user s))])
              [TimerFires; Settles (length (inflight w1)) (query_settles o)]).
  rewrite fetch_round_trip.
  destruct o; reflexivity.
Qed.

(** X4: a failed session retrieval ends signed out.  When [getSession]
    resolves with an error, with or without a session beside it, the hook
    requests a sign-out, and once that resolves, whatever it reports, the
    store is cleared, Loading is false and nothing is left queued or in
    flight. *)
Theorem mount_with_session_error_signs_out (so : option Session) (err : AuthError)
    (a : AuthReply) :
  let w := run mounting
             [Settles 0 (Fulfil (SessionPayload {| reply_session := so;
                                                   session_error := Some err |}));
              Settles 0 (Fulfil (AuthPayload a))] in
  state w =
    {| user := None; session := None; profile := None; loading := false |} /\
  requests (history w) = [GetSession; SignOut] /\
  timers w = [] /\ inflight w = [] /\ unhandled w = [].
Proof. repeat split. Qed.

Lemma idle_step (w : world) (e : event) :
  timers w = [] -> inflight w = [] -> is_auth_event e = false -> step w e = w.
Proof.
  intros Ht Hi He. destruct e as [ev s| |i x]; simpl in *.
  - discriminate.
  - now rewrite Ht.
  - rewrite Hi. now destruct i.
Qed.

Lemma idle_run (evs : list event) (w : world) :
  timers w = [] -> inflight w = [] ->
  forallb (fun e => negb (is_auth_event e)) evs = true ->
  run w evs = w.
Proof.
  intros Ht Hi. induction evs as [|e evs IH]; intros Hevs; [reflexivity|].
  simpl in Hevs. apply andb_prop in Hevs as [He Hrest].
  unfold run in *. simpl.
  rewrite idle_step; auto.
  now apply negb_true_iff.
Qed.

(** X5: mounting offline.  When [getSession] rejects and the sign-out of
    the [catch] rejects as well, the second rejection is unhandled and the
    store is never written: Loading is still true, and it stays true
    through every later turn of the event loop until an auth event
    arrives. *)
Theorem offline_mount_stays_loading (e1 e2 : exn) (evs : list event) :
  forallb (fun e => negb (is_auth_event e)) evs = true ->
  let w := run mounting ([Settles 0 (Fail e1); Settles 0 (Fail e2)] ++ evs) in
  state w = initial /\
  loading (state w) = true /\
  unhandled w = [e2] /\
  requests (history w) = [GetSession; SignOut].
Proof.
  intros Hevs w. unfold w.
  rewrite run_app, idle_run by (reflexivity || exact Hevs).
  repeat split.
Qed.

Lemma offline_mount_stays_loading_witness :
  loading
    (state
       (run mounting
          ([Settles 0 (Fail "Failed to fetch"); Settles 0 (Fail "Failed to fetch")]
           ++ [TimerFires; Settles 0 Sample.one_row; TimerFires]))) = true.
Proof.
  exact (proj1 (proj2 (offline_mount_stays_loading
                         "Failed to fetch" "Failed to fetch"
                         [TimerFires; Settles 0 Sample.one_row; TimerFires]
                         eq_refl))).
Defined.

(** X6: [initializeAuth] does not clear Profile when there is no session.
    In any world where it is still waiting for the session, a reply with
    neither session nor error sets Identity and Session to null and
    Loading to false, and leaves Profile as it is; unlike the auth-change
    callback, which clears Profile with Identity. *)
Theorem mount_without_session_keeps_profile (w : world) (i : nat) (s : suspended) :
  nth_error (inflight w) i = Some s ->
  initializing s ->
  let w' := step w (Settles i (Fulfil (SessionPayload {| reply_session := None;
                                                         session_error := None |}))) in
  user (state w') = None /\
  session (state w') = None /\
  loading (state w') = false /\
  profile (state w') = profile (state w) /\
  profile (state (step w (AuthStateChange "SIGNED_OUT" None))) = None.
Proof.
  intros Hi Hs w'. unfold w'. cbn [step]. rewrite Hi.
  unfold initializing in Hs. simpl in Hs. injection Hs as <-.
  simpl. repeat split.
Qed.

Lemma mount_without_session_keeps_profile_witness :
  let w := run mounting
             [AuthStateChange "SIGNED_IN" (Some Sample.alice_session);
              TimerFires; Settles 1 Sample.one_row] in
  let w' := step w (Settles 0 (Fulfil (SessionPayload {| reply_session := None;
                                                         session_error := None |}))) in
  user (state w') = None /\
  profile (state w') = Some (profile_of_row Sample.alice_row).
Proof.
  intros w w'.
  destruct (mount_without_session_keeps_profile w 0 _ eq_refl eq_refl)
    as (Hu & _ & _ & Hp & _).
  split; [exact Hu|]. exact Hp.
Defined.

(** ** Loading never comes back *)

Lemma never_sets_first_suspension (bad : setter -> bool) (p : async unit) :
  never_sets bad p ->
  match first_suspension p with
  | Some (Suspended rq k) => forall o, never_sets bad (k o)
  | None => True
  end.
Proof.
  induction p as [a|e|rq k _|u k IH|t k IH|l k IH]; simpl; auto.
  intros [_ Hk]. exact (IH Hk).
Qed.

Lemma run_sync_inflight_never_sets (bad : setter -> bool) (p : async unit)
    (w : world) :
  never_sets bad p ->
  inflight_never_sets bad w ->
  inflight_never_sets bad (run_sync p w).
Proof.
  unfold inflight_never_sets. intros Hp Hw.
  rewrite inflight_run_sync. apply Forall_app. split; [exact Hw|].
  apply never_sets_first_suspension in Hp.
  destruct (first_suspension p) as [[rq k]|]; constructor; auto.
Qed.

Lemma run_sync_loading_off (p : async unit) :
  forall w : world,
    never_sets turns_loading_on p ->
    loading (state w) = false ->
    loading (state (run_sync p w)) = false.
Proof.
  induction p as [a|e|rq k _|u k IH|t k IH|l k IH]; intros w Hp Hw; simpl in *;
    auto.
  destruct Hp as [Hu Hk]. apply IH; [exact Hk|].
  simpl. destruct u as [v|v|v|[|]]; simpl; auto.
Qed.

Lemma fetchProfile_never_sets_loading_on (userId : string) (userEmail : option string) :
  never_sets turns_loading_on (fetchProfile userId userEmail).
Proof.
  simpl. intros [[d [err|]]|e]; simpl; auto.
  destruct d as [[|row rest]|]; simpl; auto.
Qed.

Lemma onAuthStateChange_never_sets_loading_on (ev : string) (s : option Session) :
  never_sets turns_loading_on (onAuthStateChange ev s).
Proof. destruct s; simpl; auto. Qed.

Lemma initializeAuth_never_sets_loading_on :
  never_sets turns_loading_on initializeAuth.
Proof.
  simpl. intros [[so [err|]]|e]; simpl.
  - intros [a|e1]; simpl; [auto 6|].
    intros [a|e2]; simpl; auto 6.
  - destruct so; simpl; auto.
  - intros [a|e1]; simpl; auto 6.
Qed.

Lemma step_loading_off (w : world) (e : event) :
  inflight_never_sets turns_loading_on w ->
  inflight_never_sets turns_loading_on (step w e) /\
  (loading (state w) = false -> loading (state (step w e)) = false).
Proof.
  intros Hw. destruct e as [ev s| |i x]; cbn [step].
  - split.
    + apply run_sync_inflight_never_sets;
        [apply onAuthStateChange_never_sets_loading_on | exact Hw].
    + apply run_sync_loading_off, onAuthStateChange_never_sets_loading_on.
  - destruct (timers w) as [|[userId userEmail] ts]; [auto|].
    split.
    + apply run_sync_inflight_never_sets;
        [apply fetchProfile_never_sets_loading_on | exact Hw].
    + intros Hl. apply run_sync_loading_off;
        [apply fetchProfile_never_sets_loading_on | exact Hl].
  - destruct (nth_error (inflight w) i) as [[rq k]|] eqn:Hi; [|auto].
    assert (Hk : forall o, never_sets turns_loading_on (k o)).
    { unfold inflight_never_sets in Hw.
      rewrite Forall_forall in Hw.
      exact (Hw _ (nth_error_In _ _ Hi)). }
    cbn [resume]. destruct (typed rq x) as [o|]; cbn [option_map]; [|auto].
    split.
    + apply run_sync_inflight_never_sets; [apply Hk|].
      unfold inflight_never_sets. cbn [inflight].
      now apply Forall_remove_nth.
    + intros Hl. apply run_sync_loading_off; [apply Hk | exact Hl].
Qed.

Lemma run_loading_off (evs : list event) :
  forall w : world,
    inflight_never_sets turns_loading_on w ->
    loading (state w) = false ->
    loading (state (run w evs)) = false.
Proof.
  induction evs as [|e evs IH]; intros w Hw Hl; [exact Hl|].
  destruct (step_loading_off w e Hw) as [Hw' Hl'].
  unfold run. simpl. apply IH; auto.
Qed.

Lemma run_inflight_never_sets (evs : list event) :
  forall w : world,
    inflight_never_sets turns_loading_on w ->
    inflight_never_sets turns_loading_on (run w evs).
Proof.
  induction evs as [|e evs IH]; intros w Hw; [exact Hw|].
  unfold run. simpl. apply IH. now apply step_loading_off.
Qed.

(** X7: once Loading is false it stays false.  From the mount on, through
    every sequence of auth events, timer turns and settlements of
    [initializeAuth]'s and [fetchProfile]'s requests, no part of the hook
    calls [setLoading(true)]: a later sign-in or token refresh refetches
    the profile without showing the hook as loading again. *)
Theorem loading_stays_off (evs more : list event) :
  loading (state (run mounting evs)) = false ->
  loading (state (run mounting (evs ++ more))) = false.
Proof.
  intros Hl. rewrite run_app.
  apply run_loading_off; [|exact Hl].
  apply run_inflight_never_sets.
  unfold mounting.
  apply run_sync_inflight_never_sets;
    [apply initializeAuth_never_sets_loading_on | constructor].
Qed.

Lemma loading_stays_off_witness :
  loading
    (state
       (run mounting
          ([Settles 0 (Fulfil (SessionPayload {| reply_session := None;
                                                 session_error := None |}))]
           ++ [AuthStateChange "SIGNED_IN" (Some Sample.alice_session);
               TimerFires]))) = false.
Proof.
  apply (loading_stays_off
           [Settles 0 (Fulfil (SessionPayload {| reply_session := None;
                                                 session_error := None |}))]
           [AuthStateChange "SIGNED_IN" (Some Sample.alice_session);
            TimerFires]).
  reflexivity.
Defined.

(** ** One profile query for each session *)

Lemma timers_run_sync (p : async unit) :
  forall w : world, timers (run_sync p w) = timers w ++ sync_tasks p.
Proof.
  induction p as [a|e|rq k _|u k IH|t k IH|l k IH]; intros w; simpl;
    rewrite ?IH; simpl; rewrite ?app_nil_r; try reflexivity.
  now rewrite <- app_assoc.
Qed.

Lemma requests_run_sync (p : async unit) :
  forall w : world,
    requests (history (run_sync p w)) =
    requests (history w) ++
    match first_suspension p with
    | Some (Suspended rq _) => [rq]
    | None => []
    end.
Proof.
  induction p as [a|e|rq k _|u k IH|t k IH|l k IH]; intros w; simpl;
    rewrite ?IH; simpl; rewrite ?requests_app; simpl;
    rewrite ?app_nil_r; reflexivity.
Qed.

Lemma calm_first_suspension (p : async unit) :
  calm p ->
  sync_tasks p = [] /\
  match first_suspension p with
  | Some (Suspended rq k) => rq = SignOut /\ forall o, calm (k o)
  | None => True
  end.
Proof.
  induction p as [a|e|rq k _|u k IH|t k IH|l k IH]; simpl; auto.
  intros [].
Qed.

Lemma run_sync_calm (p : async unit) (w : world) :
  calm p ->
  Forall calm_wait (inflight w) ->
  profile_queries (run_sync p w) = profile_queries w /\
  Forall calm_wait (inflight (run_sync p w)).
Proof.
  intros Hp Hw. apply calm_first_suspension in Hp as [Htasks Hsusp].
  unfold profile_queries.
  rewrite timers_run_sync, requests_run_sync, inflight_run_sync, Htasks.
  rewrite app_nil_r, filter_app.
  destruct (first_suspension p) as [[rq k]|].
  - destruct Hsusp as [-> Hk]. simpl. rewrite app_nil_r. split; [reflexivity|].
    apply Forall_app; split; [exact Hw|].
    constructor; [|constructor]. right. now split.
  - simpl. rewrite !app_nil_r. now split.
Qed.

Lemma fetch_wait_is_calm (userId : string) (userEmail : option string)
    (s : suspended) :
  first_suspension (fetchProfile userId userEmail) = Some s -> calm_wait s.
Proof.
  intros Hs. simpl in Hs. injection Hs as <-.
  right. split; [reflexivity|].
  intros [[d [err|]]|e]; simpl; auto.
  destruct d as [[|row rest]|]; simpl; auto.
Qed.

Lemma step_profile_queries (w : world) (e : event) :
  Forall calm_wait (inflight w) ->
  profile_queries (step w e) = profile_queries w ++ query_cause w e /\
  Forall calm_wait (inflight (step w e)).
Proof.
  intros Hw. destruct e as [ev s| |i x]; cbn [step].
  - destruct (onAuthStateChange_effect ev s w) as (_ & Htm & Hin & Hrq).
    unfold profile_queries. rewrite Hrq, Htm, Hin, map_app.
    split; [|exact Hw].
    rewrite <- app_assoc. destruct s; reflexivity.
  - cbn [query_cause]. rewrite app_nil_r.
    destruct (timers w) as [|[userId userEmail] ts] eqn:Ht; [now split|].
    cbn [task_body].
    destruct (run_sync_fetchProfile userId userEmail) as (s & Hs & Hrun).
    match goal with
    | |- context [run_sync _ ?w0] =>
        destruct (Hrun w0) as (_ & Htm & Hin & Hrq)
    end.
    unfold profile_queries.
    rewrite Hrq, Htm, Hin, Ht. cbn [history timers inflight map task_request].
    rewrite requests_app, filter_app. simpl. rewrite <- app_assoc.
    split; [reflexivity|].
    apply Forall_app; split; [exact Hw|].
    constructor; [|constructor]. eapply fetch_wait_is_calm; exact Hs.
  - destruct (nth_error (inflight w) i) as [s|] eqn:Hi.
    2:{ split; [|exact Hw].
        unfold query_cause. rewrite Hi.
        destruct x as [[a|r|q]|e]; now rewrite app_nil_r. }
    assert (Hs : calm_wait s).
    { eapply Forall_forall; [exact Hw|]. eapply nth_error_In; exact Hi. }
    set (w0 := {| state := state w; timers := timers w;
                  inflight := remove_nth i (inflight w);
                  history := history w; unhandled := unhandled w |}).
    assert (Hw0 : Forall calm_wait (inflight w0))
      by (now apply Forall_remove_nth).
    assert (Hq0 : profile_queries w0 = profile_queries w) by reflexivity.
    destruct Hs as [Hinit|Hcalm].
    + unfold initializing in Hinit. simpl in Hinit. injection Hinit as <-.
      unfold query_cause. rewrite Hi.
      destruct x as [[a|[so [err|]]|q]|e]; cbn [resume typed option_map];
        try (split; [now rewrite app_nil_r | exact Hw]).
      * destruct so; rewrite app_nil_r; rewrite <- Hq0;
          apply run_sync_calm; try exact Hw0; simpl;
          (split; [reflexivity|]);
          intros [a1|e1]; simpl; auto;
          (split; [reflexivity|]); intros [a2|e2]; simpl; auto.
      * destruct so as [s|].
        -- unfold profile_queries.
           rewrite timers_run_sync, requests_run_sync, inflight_run_sync.
           simpl. rewrite !app_nil_r, map_app. simpl.
           now rewrite app_assoc.
        -- rewrite app_nil_r, <- Hq0.
           apply run_sync_calm; [simpl; auto | exact Hw0].
      * rewrite app_nil_r, <- Hq0.
        apply run_sync_calm; try exact Hw0. simpl.
        split; [reflexivity|]. intros [a1|e1]; simpl; auto.
    + destruct s as [rq k]. destruct Hcalm as [Hrq Hk].
      assert (Hnone : query_cause w (Settles i x) = []).
      { unfold query_cause. rewrite Hi.
        destruct x as [[a|r|q]|e]; try reflexivity.
        destruct rq; try discriminate;
          destruct (session_error r), (reply_session r); reflexivity. }
      rewrite Hnone, app_nil_r.
      cbn [resume].
      destruct (typed rq x) as [o|]; cbn [option_map]; [|now split].
      rewrite <- Hq0. apply run_sync_calm; [apply Hk | exact Hw0].
Qed.

Lemma run_profile_queries (evs : list event) :
  forall w : world,
    Forall calm_wait (inflight w) ->
    profile_queries (run w evs) = profile_queries w ++ queries_due w evs.
Proof.
  induction evs as [|e evs IH]; intros w Hw; simpl.
  - now rewrite app_nil_r.
  - destruct (step_profile_queries w e Hw) as [Hq Hw'].
    unfold run in *. simpl. rewrite IH by exact Hw'.
    now rewrite Hq, app_assoc.
Qed.

(** X8: every profile query has one cause.  From the mount on, after any
    sequence of events, the profile queries sent so far followed by those
    of the timer tasks still queued are, in order, one for each auth event
    that carried a session and one for the reply to [getSession] if it
    carried a session and no error, each for that session's user; nothing
    else causes a query, and a repeated event for the same user, such as a
    token refresh, fetches again. *)
Theorem one_query_per_session_event (evs : list event) :
  profile_queries (run mounting evs) = queries_due mounting evs.
Proof.
  rewrite run_profile_queries; [reflexivity|].
  constructor; [|constructor]. left. reflexivity.
Qed.

(** ** [signIn] in full *)

(** X9: what [signIn] returns, against every backend.  When both requests
    resolve it is the error value of the credential sign-in alone: an
    error reported by the forced sign-out is dropped.  When either request
    rejects it is the thrown value, returned as the error. *)
Theorem signIn_result (b : backend) (sent : list request) (email password : string) :
  fst (run_async b sent (signIn email password)) =
  Resolved
    {| error :=
         match b sent SignOut with
         | Rejected e => Some (Caught e)
         | Resolved _ =>
             match b (sent ++ [SignOut]) (SignInWithPassword email password) with
             | Rejected e => Some (Caught e)
             | Resolved r => option_map OfClient (auth_error r)
             end
         end |}.
Proof.
  unfold signIn, await. simpl.
  destruct (b sent SignOut) as [r0|e0]; simpl; [|reflexivity].
  destruct (b (sent ++ [SignOut]) (SignInWithPassword email password));
    reflexivity.
Qed.

(** * The [UserManagement] component *)

Module UserManagementFacts.
Import UserManagement.

Lemma rendered_users_permutation (users : list User) :
  Permutation users (activeUsers users ++ inactiveUsers users).
Proof.
  unfold activeUsers, inactiveUsers.
  induction users as [|user rest IH]; simpl; [apply perm_nil|].
  destruct (isActive user); simpl;
    [apply perm_skip | apply Permutation_cons_app]; exact IH.
Qed.

(** X10: the two rendered lists split the users.  Every entry of [users]
    is shown once, among the active users when its flag is set and among
    the inactive ones otherwise, and nothing else is shown. *)
Theorem users_split_by_status (users : list User) :
  Permutation users (activeUsers users ++ inactiveUsers users) /\
  length (activeUsers users) + length (inactiveUsers users) = length users /\
  (forall u, In u (activeUsers users) <-> In u users /\ isActive u = true) /\
  (forall u, In u (inactiveUsers users) <-> In u users /\ isActive u = false).
Proof.
  pose proof (rendered_users_permutation users) as HP.
  split; [exact HP|]. split.
  - apply Permutation_length in HP. rewrite length_app in HP. now symmetry.
  - unfold activeUsers, inactiveUsers.
    split; intros u; rewrite filter_In; [reflexivity|].
    now rewrite negb_true_iff.
Qed.

Lemma spread_form_of_user (u : User) :
  spread u {| form_name := name u; form_email := email u;
              form_role := role u; form_password := password u;
              form_secretNumber := secretNumber u;
              form_isActive := isActive u |} = u.
Proof. now destruct u. Qed.

(** X11: opening a user for editing and submitting the form untouched
    hands that very user back to [onEditUser], whatever the dialog held
    before, and closes the dialog. *)
Theorem edit_then_submit_returns_user (st : ui) (u : User) :
  snd (interact st [ClickEdit u; Submit]) = [preventDefault; onEditUser u] /\
  isModalOpen (fst (interact st [ClickEdit u; Submit])) = false.
Proof.
  simpl. now rewrite spread_form_of_user.
Qed.

Lemma interact_app (evs1 evs2 : list event) :
  forall st : ui,
    interact st (evs1 ++ evs2) =
    (fst (interact (fst (interact st evs1)) evs2),
     snd (interact st evs1) ++ snd (interact (fst (interact st evs1)) evs2)).
Proof.
  induction evs1 as [|ev evs1 IH]; intros st; simpl.
  - now destruct (interact st evs2).
  - destruct (dispatch st ev) as [st1 calls1] eqn:Hd.
    rewrite IH.
    destruct (interact st1 evs1) as [st2 calls2]. simpl.
    now rewrite app_assoc.
Qed.

Lemma dispatch_coherent (st : ui) (ev : event) :
  coherent st -> coherent (fst (dispatch st ev)).
Proof.
  unfold coherent. intros H.
  destruct ev; simpl; try exact H; eauto.
Qed.

Lemma interact_coherent (evs : list event) :
  forall st : ui, coherent st -> coherent (fst (interact st evs)).
Proof.
  induction evs as [|ev evs IH]; intros st H; [exact H|].
  simpl. pose proof (dispatch_coherent st ev H) as H1.
  destruct (dispatch st ev) as [st1 calls1]. simpl in H1.
  specialize (IH st1 H1).
  now destruct (interact st1 evs).
Qed.

Lemma coherent_initial : coherent initial.
Proof. split; reflexivity. Qed.

(** X12: after any sequence of events on the freshly rendered component, a
    submit calls exactly one of the parent's two callbacks.  In create
    mode it is [onAddUser] with the form, whose active flag is set: a user
    added through the dialog is always active.  In edit mode there is a
    current user and it is [onEditUser] with that user's [id], [createdAt]
    and active flag and the form's other fields: the dialog can change
    neither of the three. *)
Theorem submit_saves_one_user (evs : list event) :
  let st := fst (interact initial evs) in
  match modalMode st with
  | create =>
      snd (dispatch st Submit) = [preventDefault; onAddUser (formData st)] /\
      form_isActive (formData st) = true
  | edit =>
      exists u,
        currentUser st = Some u /\
        snd (dispatch st Submit) =
          [preventDefault;
           onEditUser {| id := id u;
                         name := form_name (formData st);
                         email := form_email (formData st);
                         role := form_role (formData st);
                         password := form_password (formData st);
                         secretNumber := form_secretNumber (formData st);
                         createdAt := createdAt u;
                         isActive := isActive u |}]
  end.
Proof.
  intros st.
  pose proof (interact_coherent evs initial coherent_initial) as H.
  fold st in H. unfold coherent in H. simpl.
  destruct (modalMode st).
  - destruct H as [_ Ha]. now split.
  - destruct H as (u & Hu & Ha). exists u. split; [exact Hu|].
    rewrite Hu. unfold spread. now rewrite Ha.
Qed.

Lemma dispatch_saves (st : ui) (ev : event) :
  coherent st ->
  length (filter saves_user (snd (dispatch st ev))) =
  if is_submit ev then 1 else 0.
Proof.
  unfold coherent. intros H. destruct ev; simpl; try reflexivity.
  destruct (modalMode st); [reflexivity|].
  destruct H as (u & -> & _). reflexivity.
Qed.

Lemma interact_saves (evs : list event) :
  forall st : ui,
    coherent st ->
    length (filter saves_user (snd (interact st evs))) =
    length (filter is_submit evs).
Proof.
  induction evs as [|ev evs IH]; intros st H; [reflexivity|].
  simpl.
  pose proof (dispatch_saves st ev H) as Hd.
  pose proof (dispatch_coherent st ev H) as H1.
  destruct (dispatch st ev) as [st1 calls1]. simpl in Hd, H1.
  specialize (IH st1 H1).
  destruct (interact st1 evs) as [st2 calls2]. simpl in *.
  rewrite filter_app, length_app, Hd, IH.
  now destruct (is_submit ev).
Qed.

(** X13: the parent is asked to add or change a user once for each submit
    of the form and never otherwise: over any sequence of events on the
    freshly rendered component, the calls of [onAddUser] and [onEditUser]
    are as many as the submits. *)
Theorem saves_match_submits (evs : list event) :
  length (filter saves_user (snd (interact initial evs))) =
  length (filter is_submit evs).
Proof. apply interact_saves, coherent_initial. Qed.

Lemma form_changes_keep (evs : list event) :
  forall st : ui,
    forallb is_form_change evs = true ->
    let st' := fst (interact st evs) in
    snd (interact st evs) = [] /\
    currentUser st' = currentUser st /\
    modalMode st' = modalMode st /\
    form_isActive (formData st') = form_isActive (formData st).
Proof.
  induction evs as [|ev evs IH]; intros st Hevs; [now repeat split|].
  simpl in Hevs. apply andb_prop in Hevs as [Hev Hrest].
  specialize (IH (fst (dispatch st ev)) Hrest).
  simpl. destruct (dispatch st ev) as [st1 calls1] eqn:Hd. simpl in IH.
  destruct (interact st1 evs) as [st2 calls2]. simpl in *.
  destruct IH as (-> & -> & -> & ->).
  destruct ev; try discriminate; simpl in Hd; injection Hd as <- <-;
    now repeat split.
Qed.

(** X14: editing cannot change who the user is.  When a user is opened for
    editing, the form's fields are changed in any way and the form is
    submitted, [onEditUser] is called once, with a user that has the [id],
    the [createdAt] and the active flag of the user that was opened. *)
Theorem edit_keeps_id_createdAt_isActive (st : ui) (u : User) (evs : list event) :
  forallb is_form_change evs = true ->
  exists u',
    snd (interact st (ClickEdit u :: evs ++ [Submit])) =
      [preventDefault; onEditUser u'] /\
    id u' = id u /\ createdAt u' = createdAt u /\ isActive u' = isActive u.
Proof.
  intros Hevs.
  change (ClickEdit u :: evs ++ [Submit]) with ([ClickEdit u] ++ evs ++ [Submit]).
  rewrite !interact_app.
  cbn [snd fst].
  set (st0 := fst (interact st [ClickEdit u])).
  destruct (form_changes_keep evs st0 Hevs) as (Hc & Hu & Hm & Ha).
  rewrite Hc.
  set (st1 := fst (interact st0 evs)) in *.
  exists (spread u (formData st1)).
  split.
  - simpl. rewrite Hm, Hu. reflexivity.
  - unfold spread. simpl. repeat split. exact Ha.
Qed.

Lemma edit_keeps_id_createdAt_isActive_witness :
  exists u',
    snd (interact initial Sample.rename_and_regenerate) =
      [preventDefault; onEditUser u'] /\
    id u' = "7" /\ createdAt u' = "2024-03-01" /\ isActive u' = true.
Proof.
  exact (edit_keeps_id_createdAt_isActive initial Sample.zainab
           [ChangeName "Zaynab"; ClickGenerate "654321"] eq_refl).
Defined.

End UserManagementFacts.

(** * The notification counter *)

Module NotificationFacts.
Import NotificationHandler.

(** X15: the unread count never exceeds the number of notifications; it is
    zero exactly when every notification is read, and it is the number of
    notifications exactly when none is. *)
Theorem unreadNotifications_bounds (notifications : list Notification) :
  unreadNotifications notifications <= length notifications /\
  (unreadNotifications notifications = 0 <->
   forall n, In n notifications -> read n = true) /\
  (unreadNotifications notifications = length notifications <->
   forall n, In n notifications -> read n = false).
Proof.
  unfold unreadNotifications.
  induction notifications as [|n rest (Hle & Hzero & Hall)]; simpl.
  - repeat split; auto; intros _ n [].
  - destruct (read n) eqn:Hn; simpl.
    + split; [lia|]. split.
      * rewrite Hzero. split.
        -- intros H m [<-|Hm]; auto.
        -- intros H m Hm. apply H. now right.
      * split; [lia|].
        intros H. specialize (H n (or_introl eq_refl)). congruence.
    + split; [lia|]. split.
      * split; [discriminate|].
        intros H. specialize (H n (or_introl eq_refl)). congruence.
      * split.
        -- intros H. injection H as H. rewrite Hall in H.
           intros m [<-|Hm]; auto.
        -- intros H. f_equal. apply Hall. intros m Hm. apply H. now right.
Qed.

(** X16: the unread count does not depend on the order of the
    notifications: two lists with the same entries give the same count. *)
Theorem unreadNotifications_order (l1 l2 : list Notification) :
  Permutation l1 l2 ->
  unreadNotifications l1 = unreadNotifications l2.
Proof.
  unfold unreadNotifications. intros H.
  induction H; simpl.
  - reflexivity.
  - destruct (read x); simpl; congruence.
  - destruct (read x), (read y); reflexivity.
  - congruence.
Qed.

Lemma unreadNotifications_order_witness :
  unreadNotifications
    [{| notification_id := "a"; read := false |};
     {| notification_id := "b"; read := true |}] =
  unreadNotifications
    [{| notification_id := "b"; read := true |};
     {| notification_id := "a"; read := false |}].
Proof.
  apply unreadNotifications_order. constructor.
Defined.

End NotificationFacts.
